(** * autofeat: the iterative feature-selection loop of [featsel.py]

    A shallow embedding of [select_features] (src/autofeat/featsel.py) and
    the properties of its split, candidate scoring, fit-and-prune and
    convergence tracking stages.

    Numbers are the code's: Python [float] and numpy [float64] are IEEE 754
    binary64, which is Rocq's primitive [float]; Python [int] is [Z] or
    [nat] where the code can only produce a non-negative value.  The
    numerical collaborators the code calls but does not define
    (StandardScaler, LassoLarsCV, [np.dot], [np.mean], [np.argsort], the
    iteration order of a [set]) are the fields of the class
    [Collaborators], each with the contract the code relies on. *)

From Stdlib Require Import Floats ZArith.
From stdpp Require Import gmap strings list sorting.

Set Warnings "-inexact-float,-clear-no-such-hyp".
Set Default Proof Using "Type".

Local Open Scope float_scope.

(** ** Exceptions and the error monad *)

(** The exceptions [select_features] can raise: the [ValueError] of line 47,
    the [IndexError] of a list subscript (line 73) and the [KeyError] of a
    column selection [df[cols]] (lines 71, 78, 81). *)
Inductive exn : Type :=
  | DimensionMismatch
  | IndexError
  | KeyError.

Inductive result (A : Type) : Type :=
  | Ok (a : A)
  | Raise (e : exn).
Arguments Ok {A} a.
Arguments Raise {A} e.

Global Instance exn_eq_dec : EqDecision exn.
Proof. solve_decision. Defined.

Global Instance result_ret : MRet result := @Ok.
Global Instance result_bind : MBind result := λ A B f m,
  match m with
  | Ok a => f a
  | Raise e => Raise e
  end.

Global Instance result_fmap : FMap result := λ A B f m,
  match m with
  | Ok a => Ok (f a)
  | Raise e => Raise e
  end.

(** A subscript [l[i]] with a non-negative index. *)
Definition getitem {A} (l : list A) (i : nat) : result A :=
  match l !! i with
  | Some x => Ok x
  | None => Raise IndexError
  end.

(** ** Python slices *)

(** [l[start:]] for any Python integer [start]: a negative start counts
    from the end and is clamped at the beginning of the list. *)
Definition slice_from {A} (start : Z) (l : list A) : list A :=
  drop (Z.to_nat (if (start <? 0)%Z
                  then Z.max 0 (Z.of_nat (length l) + start)
                  else start)) l.

(** The length of [l[-k:]] for a list [l] of [n] elements: the last [k] for
    a positive [k], the whole list for [k = 0], and all but the first [-k]
    for a negative [k]. *)
Definition taken (k : Z) (n : nat) : nat :=
  if (0 <? k)%Z then (Z.to_nat k `min` n)%nat else (n - Z.to_nat (- k))%nat.

(** ** numpy scalars and arrays *)

Global Instance float_inhabited : Inhabited float := populate 0.

(** [np.isclose(a, b)] on scalars with the default [rtol], [atol] and
    [equal_nan=False]: the tolerance test on finite operands, equality
    otherwise. *)
Definition rtol : float := 1e-5.
Definition atol : float := 1e-8.

Definition isclose (a b : float) : bool :=
  if is_finite a && is_finite b
  then (abs (a - b) <=? atol + rtol * abs b)
  else (a =? b).

(** [np.sum] of a boolean array: the number of [True] entries. *)
Definition np_sum_bool (l : list bool) : nat :=
  sum_list_with (λ b : bool, if b then 1%nat else 0%nat) l.

(** [np.zeros(n)] *)
Definition np_zeros (n : nat) : list float := replicate n 0.

(** Elementwise [x - y] of two 1-d arrays of one length. *)
Definition np_sub (x y : list float) : list float := zip_with PrimFloat.sub x y.

(** [np.abs] *)
Definition np_abs (x : list float) : list float := map abs x.

(** A 2-d array: its rows and the second component of its [shape]. *)
Record ndarray : Type := mk_ndarray {
  ncols : nat;
  mrows : list (list float)
}.

(** [v[:, None]]: a 1-d array as a one-column matrix. *)
Definition as_column (v : list float) : ndarray :=
  {| ncols := 1; mrows := map (λ x, [x]) v |}.

(** [X[:, 0]] *)
Definition column0 (X : ndarray) : list float :=
  map (λ r : list float, r !!! 0%nat) (mrows X).

(** ** Data frames *)

(** An n x p frame with its column labels; the labels are pairwise distinct
    (the data model identifies a column by a stable name). *)
Record DataFrame : Type := mk_df {
  columns : list string;
  rows : list (list float)
}.

(** [len(df)] and [df.shape[0]] *)
Definition len (df : DataFrame) : nat := length (rows df).

(** [df[:k]] and [df[k:]] for [k >= 0] *)
Definition df_head (k : nat) (df : DataFrame) : DataFrame :=
  {| columns := columns df; rows := take k (rows df) |}.
Definition df_tail (k : nat) (df : DataFrame) : DataFrame :=
  {| columns := columns df; rows := drop k (rows df) |}.

(** The position of a label in [df.columns]. *)
Fixpoint col_index (c : string) (cs : list string) : result nat :=
  match cs with
  | [] => Raise KeyError
  | c' :: cs' => if decide (c = c') then Ok 0%nat else S <$> col_index c cs'
  end.

(** [df[cols].to_numpy()]: the columns named by [cols], in that order. *)
Definition to_numpy_of (df : DataFrame) (cols : list string) : result ndarray :=
  idx ← mapM (λ c, col_index c (columns df)) cols;
  Ok {| ncols := length cols;
        mrows := map (λ r : list float, map (λ i, r !!! i) idx) (rows df) |}.

(** ** The split (lines 42-47) *)

(** [int(0.8 * n)] for a row count [n]: the double nearest to 0.8 exceeds
    0.8 by 0.4 ulp, so the rounded product is [4n/5] when 5 divides [n] and
    lies strictly between the neighbouring integers otherwise; truncation
    gives the integer quotient. *)
Definition int_08 (n : nat) : nat := (4 * n) `div` 5.

(** A count as a double (exact below 2^53). *)
Definition float_of_nat (n : nat) : float := Nat.iter n (λ x, x + 1) 0.

(** [int(0.5 * m)]: 0.5 is a double and the product is exact. *)
Definition int_05 (m : nat) : nat := m `div` 2.

Record split : Type := mk_split {
  df_train : DataFrame;
  df_test : DataFrame;
  target_train : list float;
  target_test : list float
}.

Definition make_split (df : DataFrame) (target : list float) : split :=
  {| df_train := df_head (max 3 (int_08 (len df))) df;
     df_test := df_tail (int_08 (len df)) df;
     target_train := take (max 3 (int_08 (len df))) target;
     target_test := drop (int_08 (len df)) target |}.

Definition split_lengths_agree (sp : split) : bool :=
  bool_decide (len (df_train sp) = length (target_train sp))
  && bool_decide (len (df_test sp) = length (target_test sp)).

Definition split_manager (df : DataFrame) (target : list float) : result split :=
  let sp := make_split df target in
  if negb (split_lengths_agree sp) then Raise DimensionMismatch else Ok sp.

(** ** The collaborators *)

(** What [select_features] calls and does not define, with the contracts
    its control flow rests on. *)
Class Collaborators : Type := {
  (** [StandardScaler().fit_transform(X)]: same shape as [X] *)
  fit_transform : ndarray → ndarray;
  fit_transform_rows X : length (mrows (fit_transform X)) = length (mrows X);
  (** the cast of a value to [np.float32] and back *)
  as_float32 : float → float;
  (** [np.dot(v, X)]: one value per column of [X] *)
  np_dot : list float → ndarray → list float;
  np_dot_length v X : length (np_dot v X) = ncols X;
  (** [np.mean] of a 1-d array *)
  np_mean : list float → float;
  (** [np.argsort(w)]: the indices of [w], reordered *)
  np_argsort : list float → list nat;
  np_argsort_perm w : np_argsort w ≡ₚ seq 0 (length w);
  (** [list(s)] for a set [s]: its elements in the set's iteration order *)
  set_iter : gset string → list string;
  set_iter_perm X : set_iter X ≡ₚ elements X;
  (** [lm.LassoLarsCV(eps=eps)], [reg.fit(X, y)], [reg.predict(X)] and
      [reg.coef_], one coefficient per column of the fitted [X] *)
  regressor : Type;
  lasso_fit : float → ndarray → list float → regressor;
  predict : regressor → ndarray → list float;
  coef_ : regressor → list float;
  coef_length eps X y : length (coef_ (lasso_fit eps X y)) = ncols X
}.

(** ** Python dictionaries *)

(** A [dict] keeps its keys in insertion order; assigning to a key that is
    present replaces the value in place. *)
Fixpoint dict_set (k : string) (v : float) (d : list (string * float))
  : list (string * float) :=
  match d with
  | [] => [(k, v)]
  | (k', v') :: d' =>
      if decide (k = k') then (k', v) :: d' else (k', v') :: dict_set k v d'
  end.

(** [dict(pairs)] *)
Definition dict (kvs : list (string * float)) : list (string * float) :=
  foldl (λ d kv, dict_set kv.1 kv.2 d) [] kvs.

(** ** Diagnostic output *)

Inductive line : Type :=
  | ScalingData
  | ScalingDone
  | Iteration (i n : nat) (r : float)
  | IterationDone (i n : nat) (r : float).

(** Truth value of the integer [verbose]. *)
Definition truthy (v : Z) : bool := negb (v =? 0)%Z.

(** ** The loop (lines 49-87) *)

Record state : Type := mk_state {
  it : nat;
  good_cols : list string;
  best_cols : list string;
  new_target : list float;
  residual : float;
  last_residuals : list float;
  smallest_residual : float;
  stdout : list line
}.

(** Near-zero threshold of the pruning step (line 84). *)
Definition coef_threshold : float := 1e-6.

Section Loop.
Context `{Collaborators}.
Variable sp : split.
Variable max_it : nat.
Variable eps : float.
Variable verbose : Z.

(** Line 53 *)
Definition thr : nat := int_05 (len (df_train sp)).

(** Lines 50-59 *)
Definition init (out : list line) : state :=
  let residual0 := np_mean (np_abs (target_test sp)) in
  {| it := 0;
     good_cols := [];
     best_cols := [];
     new_target := target_train sp;
     residual := residual0;
     last_residuals := np_zeros max_it;
     smallest_residual := 10 * residual0;
     stdout := out |}.

(** Line 61: the guard of the [while]. *)
Definition loop_cond (s : state) : bool :=
  bool_decide (it s < max_it)%nat
  && negb (bool_decide
             (2 ≤ np_sum_bool (map (isclose (residual s)) (last_residuals s)))%nat).

(** Lines 67-69: the columns not in the working set, as a list. *)
Definition candidates (good : list string) : list string :=
  set_iter (list_to_set (columns (df_train sp)) ∖ list_to_set good).

(** Line 71 *)
Definition scores (target : list float) (cols_list : list string)
  : result (list float) :=
  X ← to_numpy_of (df_train sp) cols_list;
  Ok (np_abs (np_dot (column0 (fit_transform (as_column target))) X)).

(** Line 73: [good_cols.extend(...)]; the value is the extended list. *)
Definition candidate_scorer (good : list string) (target : list float)
  : result (list string) :=
  let cols_list := candidates good in
  w ← scores target cols_list;
  new ← mapM (getitem cols_list)
          (slice_from (- (Z.of_nat thr - Z.of_nat (length good))) (np_argsort w));
  Ok (good ++ new).

(** Line 84: the keys of [weights] whose value is large enough. *)
Definition prune (weights : list (string * float)) : list string :=
  (filter (λ kv : string * float, (coef_threshold <? abs kv.2) = true) weights).*1.

(** Lines 62-87: one iteration. *)
Definition loop_body (s : state) : result state :=
  let out :=
    if truthy verbose && bool_decide (it s `mod` 10 = 0)%nat
    then stdout s ++ [Iteration (it s) (length (good_cols s)) (residual s)]
    else stdout s in
  let history := <[it s := residual s]> (last_residuals s) in
  good ← candidate_scorer (good_cols s) (new_target s);
  X ← to_numpy_of (df_train sp) good;
  let reg := lasso_fit eps X (target_train sp) in
  let target' := np_sub (target_train sp) (predict reg X) in
  Xt ← to_numpy_of (df_test sp) good;
  let residual' := np_mean (np_abs (np_sub (target_test sp) (predict reg Xt))) in
  let weights := dict (zip good (coef_ reg)) in
  let good' := prune weights in
  let improved := residual' <? smallest_residual s in
  Ok {| it := S (it s);
        good_cols := good';
        best_cols := if improved then good' else best_cols s;
        new_target := target';
        residual := residual';
        last_residuals := history;
        smallest_residual := if improved then residual' else smallest_residual s;
        stdout := out |}.

(** What a run of the [while] loop leaves behind: how many iterations
    started, the validation residual each completed one computed, and the
    final state or the exception that ended it. *)
Record run : Type := mk_run {
  iterations : nat;
  residuals : list float;
  final : result state
}.

Definition run_iter (r : float) (x : run) : run :=
  {| iterations := S (iterations x);
     residuals := r :: residuals x;
     final := final x |}.

(** The [while] statement, as a big-step relation. *)
Inductive loop_exec : state → run → Prop :=
  | exec_exit s :
      loop_cond s = false →
      loop_exec s (mk_run 0 [] (Ok s))
  | exec_raise s e :
      loop_cond s = true →
      loop_body s = Raise e →
      loop_exec s (mk_run 1 [] (Raise e))
  | exec_iter s s' x :
      loop_cond s = true →
      loop_body s = Ok s' →
      loop_exec s' x →
      loop_exec s (run_iter (residual s') x).

(** The same statement as a function; [fuel] bounds the iterations, and
    [max_it - it s] of it is enough ([loop_adequate] below). *)
Fixpoint loop (fuel : nat) (s : state) : run :=
  if loop_cond s then
    match fuel with
    | O => mk_run 0 [] (Ok s)
    | S fuel' =>
        match loop_body s with
        | Raise e => mk_run 1 [] (Raise e)
        | Ok s' => run_iter (residual s') (loop fuel' s')
        end
    end
  else mk_run 0 [] (Ok s).

(** States the loop can be in at its guard. *)
Inductive reachable (out : list line) : state → Prop :=
  | reach_init : reachable out (init out)
  | reach_step s s' :
      reachable out s →
      loop_cond s = true →
      loop_body s = Ok s' →
      reachable out s'.

(** The invariant of the loop: the working set has no duplicates and names
    columns of the frame; the history has [max_it] slots, and those from
    [it] on still hold the zero they were created with. *)
Record state_inv (s : state) : Prop := mk_state_inv {
  inv_NoDup : NoDup (good_cols s);
  inv_columns : good_cols s ⊆ columns (df_train sp);
  inv_it : (it s ≤ max_it)%nat;
  inv_length : length (last_residuals s) = max_it;
  inv_unwritten : drop (it s) (last_residuals s) = replicate (max_it - it s) 0
}.

End Loop.

(** ** The function (lines 14-90) *)

Record outcome : Type := mk_outcome {
  returned : result (list string);
  n_iterations : nat;
  test_residuals : list float;
  printed : list line
}.

Section SelectFeatures.
Context `{Collaborators}.

(** Lines 31-39: the frame rebuilt from the scaled values, held as
    [np.float32]. *)
Definition scale (df : DataFrame) : DataFrame :=
  {| columns := columns df;
     rows := map (map as_float32)
               (mrows (fit_transform (mk_ndarray (length (columns df)) (rows df)))) |}.

Definition select_features (df : DataFrame) (target : list float)
    (df_scaled : bool) (max_it : nat) (eps : float) (verbose : Z) : outcome :=
  let out := if negb df_scaled && truthy verbose
             then [ScalingData; ScalingDone] else [] in
  let df := if df_scaled then df else scale df in
  match split_manager df target with
  | Raise e => mk_outcome (Raise e) 0 [] out
  | Ok sp =>
      let x := loop sp max_it eps verbose max_it (init sp max_it out) in
      match final x with
      | Raise e => mk_outcome (Raise e) (iterations x) (residuals x) out
      | Ok s =>
          let out' :=
            if truthy verbose
            then stdout s ++ [IterationDone (it s) (length (best_cols s))
                                            (smallest_residual s)]
            else stdout s in
          mk_outcome (Ok (best_cols s)) (iterations x) (residuals x) out'
      end
  end.


End SelectFeatures.

(** ** The claim of the spec on the loop's exit, in the spec's words *)

(** Spec, section 4.4: the loop exits when the budget is exhausted or at
    least two residuals recorded by prior iterations (the first [it] entries
    of the history) are close to the current one. *)
Definition spec_loop_exit (max_it : nat) (s : state) : Prop :=
  (max_it ≤ it s)%nat ∨
  (2 ≤ np_sum_bool (map (isclose (residual s))
                      (take (it s) (last_residuals s))))%nat.

(** ** A concrete instance of the collaborators *)

(** Sequential floating-point versions of the numerical collaborators, used
    to run the model on concrete data.  The regressor is least squares on
    pairwise orthogonal columns, where each coefficient is the projection of
    the target on its column. *)
Module Example.

Definition fsum (l : list float) : float := foldl PrimFloat.add 0 l.
Definition fcount {A} (l : list A) : float := foldl (λ a _, a + 1) 0 l.
Definition fmean (l : list float) : float := fsum l / fcount l.
Definition fdot (x y : list float) : float := fsum (zip_with PrimFloat.mul x y).
Definition column (X : ndarray) (j : nat) : list float :=
  map (λ r : list float, r !!! j) (mrows X).

(** StandardScaler: centre each column and divide it by its standard
    deviation, a zero deviation being replaced by 1. *)
Definition standardize_col (c : list float) : float → float :=
  let m := fmean c in
  let sd := sqrt (fmean (map (λ x, (x - m) * (x - m)) c)) in
  λ x, (x - m) / (if sd =? 0 then 1 else sd).

Definition standard_scaler (X : ndarray) : ndarray :=
  {| ncols := ncols X;
     mrows := map (λ r : list float,
                imap (λ j x, standardize_col (column X j) x) r) (mrows X) |}.

(** Rounding to the 24-bit significand of [np.float32] (values in its
    normal range), by splitting at bit 29. *)
Definition round24 (x : float) : float :=
  let c := x * 536870913 in c - (c - x).

Definition dot (v : list float) (X : ndarray) : list float :=
  map (λ j, fdot v (column X j)) (seq 0 (ncols X)).

Fixpoint insert_by (w : list float) (i : nat) (l : list nat) : list nat :=
  match l with
  | [] => [i]
  | j :: l' => if (w !!! i) <=? (w !!! j) then i :: l else j :: insert_by w i l'
  end.

Definition argsort (w : list float) : list nat :=
  foldr (insert_by w) [] (seq 0 (length w)).

Definition projection_fit (_ : float) (X : ndarray) (y : list float) : list float :=
  map (λ j, fdot (column X j) y / fdot (column X j) (column X j))
      (seq 0 (ncols X)).

Definition linear_predict (coef : list float) (X : ndarray) : list float :=
  map (fdot coef) (mrows X).

Lemma insert_by_perm w i l : insert_by w i l ≡ₚ i :: l.
Proof.
  induction l as [|j l IH]; simpl; [done|].
  destruct (_ <=? _); [done|]. rewrite IH. apply Permutation_swap.
Qed.

Lemma argsort_perm w : argsort w ≡ₚ seq 0 (length w).
Proof.
  unfold argsort. induction (seq 0 (length w)) as [|i l IH]; simpl; [done|].
  by rewrite insert_by_perm, IH.
Qed.

#[export] Instance collaborators : Collaborators := {|
  fit_transform := standard_scaler;
  fit_transform_rows X := length_map _ _;
  as_float32 := round24;
  np_dot := dot;
  np_dot_length v X := eq_trans (length_map _ _) (length_seq _ _);
  np_mean := fmean;
  np_argsort := argsort;
  np_argsort_perm := argsort_perm;
  set_iter := elements;
  set_iter_perm X := reflexivity _;
  regressor := list float;
  lasso_fit := projection_fit;
  predict := linear_predict;
  coef_ := id;
  coef_length eps X y := eq_trans (length_map _ _) (length_seq _ _)
|}.

(** Ten rows of five pairwise orthogonal, centred, unit-variance columns
    (the first eight rows are columns 1-5 of the 8 x 8 Hadamard matrix). *)
Definition df10 : DataFrame :=
  {| columns := ["a"; "b"; "c"; "d"; "e"];
     rows := [ [ 1;  1;  1;  1;  1];
               [-1;  1; -1;  1; -1];
               [ 1; -1; -1;  1;  1];
               [-1; -1;  1;  1; -1];
               [ 1;  1;  1; -1; -1];
               [-1;  1; -1; -1;  1];
               [ 1; -1; -1; -1; -1];
               [-1; -1;  1; -1;  1];
               [ 1; -1;  1; -1;  1];
               [-1;  1;  1;  1; -1] ] |}.

(** [5a + 4b + 3c + 2d + e], row by row. *)
Definition target10 : list float := [15; -3; 1; -5; 9; -5; -5; -7; 3; 3].

(** The same target with a test part that is zero. *)
Definition target10_flat : list float := [15; -3; 1; -5; 9; -5; -5; -7; 0; 0].

Definition sp10 : split := make_split df10 target10.
Definition sp10_flat : split := make_split df10 target10_flat.

(** The states of the run on [df10] and [target10], computed: before the
    first, after the first and after the second iteration. *)
Definition state10_0 : state := init sp10 100 [].

Definition state10_1 : state :=
  Eval vm_compute in
    match loop_body sp10 1e-16 0 state10_0 with
    | Ok s => s
    | Raise _ => state10_0
    end.


(** The run on [df10] left to the scaling of lines 31-39: the split of the
    scaled frame and the state the loop ends in, after four iterations. *)
Definition sp10_scaled : split := make_split (scale df10) target10.

Definition state10_scaled_final : state :=
  Eval vm_compute in
    match final (loop sp10_scaled 100 1e-16 0 100 (init sp10_scaled 100 [])) with
    | Ok s => s
    | Raise _ => init sp10_scaled 100 []
    end.

(** Three rows. *)
Definition df3 : DataFrame :=
  {| columns := ["a"]; rows := [[1]; [2]; [3]] |}.
Definition target3 : list float := [1; 2; 3].

End Example.

(** * Properties *)

(** ** The error monad *)

Lemma mapM_result_ok {A B} (f : A → result B) (l : list A) :
  (∀ x, x ∈ l → ∃ y, f x = Ok y) →
  ∃ k, mapM f l = Ok k ∧ Forall2 (λ x y, f x = Ok y) l k.
Proof.
  induction l as [|x l IH]; intros Hl.
  - exists []. by split.
  - destruct (Hl x) as [y Hy]; [left|].
    destruct IH as (k & Hk & HF); [intros; apply Hl; by right|].
    exists (y :: k). split; [|by constructor].
    simpl. rewrite Hy. simpl. by rewrite Hk.
Qed.

Lemma mapM_result_raise {A B} (f : A → result B) (l : list A) (e : exn) :
  mapM f l = Raise e → ∃ x, x ∈ l ∧ f x = Raise e.
Proof.
  induction l as [|x l IH]; simpl; [done|].
  destruct (f x) as [y|e'] eqn:Hx; simpl.
  - destruct (mapM f l) as [k|e'']; simpl; [done|].
    intros [= ->]. destruct IH as (x' & ? & ?); [done|].
    exists x'. split; [by right|done].
  - intros [= ->]. exists x. split; [left|done].
Qed.

(** ** The split *)

(** [int_08] against the product in double precision, on the first 2000
    row counts: [0.8 * n] lies in [[int_08 n, int_08 n + 1)]. *)
Lemma int_08_double :
  forallb (λ n, (float_of_nat (int_08 n) <=? 0.8 * float_of_nat n)
                && (0.8 * float_of_nat n <? float_of_nat (S (int_08 n))))
    (seq 0 2000) = true.
Proof. vm_compute. reflexivity. Qed.

Lemma int_08_ge3 n : (4 ≤ n → 3 ≤ int_08 n)%nat.
Proof. intros. unfold int_08. apply Nat.div_le_lower_bound; lia. Qed.

Lemma int_08_lt n : (1 ≤ n → int_08 n < n)%nat.
Proof. intros. unfold int_08. apply Nat.Div0.div_lt_upper_bound; lia. Qed.

Lemma len_df_train df target :
  len (df_train (make_split df target)) = (max 3 (int_08 (len df)) `min` len df)%nat.
Proof. unfold len; simpl. by rewrite length_take. Qed.

Lemma len_df_test df target :
  len (df_test (make_split df target)) = (len df - int_08 (len df))%nat.
Proof. unfold len; simpl. by rewrite length_drop. Qed.

Lemma split_lengths_agree_spec sp :
  split_lengths_agree sp = true ↔
  len (df_train sp) = length (target_train sp) ∧
  len (df_test sp) = length (target_test sp).
Proof.
  unfold split_lengths_agree.
  by rewrite andb_true_iff, !bool_decide_eq_true.
Qed.

Lemma split_manager_ok df target :
  length target = len df → split_manager df target = Ok (make_split df target).
Proof.
  intros Hlen. unfold split_manager.
  assert (split_lengths_agree (make_split df target) = true) as ->; [|done].
  apply split_lengths_agree_spec. unfold len in *; simpl.
  rewrite !length_take, !length_drop. lia.
Qed.


(** For at least four rows the check fails exactly on a target of another
    length. *)
Lemma split_lengths_agree_ge4 df target :
  (4 ≤ len df)%nat →
  split_lengths_agree (make_split df target) = true ↔ length target = len df.
Proof.
  intros Hn. rewrite split_lengths_agree_spec.
  pose proof (int_08_ge3 _ Hn). pose proof (int_08_lt (len df)).
  unfold len in *; simpl. rewrite !length_take, !length_drop. lia.
Qed.

(** ** C5: the split is a partition *)

(** C5, amended: for a frame of at least four rows the train block is the
    first [max(3, floor(0.8 n))] rows, the test block is the remaining rows,
    the two blocks follow each other without overlap and cover the frame,
    and their lengths add up to [n]. *)
Theorem split_partition_ge4 (df : DataFrame) (target : list float) :
  (4 ≤ len df)%nat →
  let sp := make_split df target in
  rows (df_train sp) = take (max 3 (int_08 (len df))) (rows df) ∧
  len (df_train sp) = max 3 (int_08 (len df)) ∧
  rows (df_test sp) = drop (len (df_train sp)) (rows df) ∧
  rows (df_train sp) ++ rows (df_test sp) = rows df ∧
  (len (df_train sp) + len (df_test sp) = len df)%nat.
Proof.
  intros Hn sp.
  pose proof (int_08_ge3 _ Hn) as H3. pose proof (int_08_lt (len df)) as Hlt.
  assert (max 3 (int_08 (len df)) = int_08 (len df)) as Hmax by lia.
  assert (len (df_train sp) = int_08 (len df)) as Htrain.
  { unfold sp. rewrite len_df_train. lia. }
  split_and!.
  - done.
  - lia.
  - rewrite Htrain. done.
  - simpl. rewrite Hmax. apply take_drop.
  - unfold sp at 2. rewrite len_df_test. lia.
Qed.

(** The split of ten rows is a partition. *)
Lemma split_partition_ge4_witness :
  rows (df_train (make_split Example.df10 Example.target10))
    = take (max 3 (int_08 (len Example.df10))) (rows Example.df10) ∧
  len (df_train (make_split Example.df10 Example.target10))
    = max 3 (int_08 (len Example.df10)) ∧
  rows (df_test (make_split Example.df10 Example.target10))
    = drop (len (df_train (make_split Example.df10 Example.target10)))
        (rows Example.df10) ∧
  rows (df_train (make_split Example.df10 Example.target10))
    ++ rows (df_test (make_split Example.df10 Example.target10))
    = rows Example.df10 ∧
  (len (df_train (make_split Example.df10 Example.target10))
   + len (df_test (make_split Example.df10 Example.target10))
   = len Example.df10)%nat.
Proof.
  apply (split_partition_ge4 Example.df10 Example.target10).
  vm_compute. lia.
Defined.

(** C5 as stated fails on three rows: the train block is the whole frame,
    the test block is its last row again, and the lengths add up to 4. *)
Lemma split_overlap_counterexample :
  len Example.df3 = 3%nat ∧
  rows (df_train (make_split Example.df3 Example.target3)) = [[1]; [2]; [3]] ∧
  rows (df_test (make_split Example.df3 Example.target3)) = [[3]] ∧
  (len (df_train (make_split Example.df3 Example.target3))
   + len (df_test (make_split Example.df3 Example.target3)) ≠ len Example.df3)%nat.
Proof. split_and!; [reflexivity..|]. vm_compute. lia. Qed.
(** ** Column selection *)

Lemma col_index_ok (c : string) (cs : list string) :
  c ∈ cs → ∃ i, col_index c cs = Ok i.
Proof.
  induction cs as [|c' cs IH]; [by intros ?%elem_of_nil|].
  intros Hc. simpl. destruct (decide (c = c')) as [->|Hne]; [by eexists|].
  apply elem_of_cons in Hc as [?|Hc]; [done|].
  destruct (IH Hc) as [i ->]. by eexists.
Qed.

Lemma col_index_raise (c : string) (cs : list string) (e : exn) :
  col_index c cs = Raise e → e = KeyError.
Proof.
  induction cs as [|c' cs IH]; simpl; [by intros [= <-]|].
  destruct (decide (c = c')); [done|].
  destruct (col_index c cs); simpl; [done|]. intros [= <-]. by apply IH.
Qed.

Lemma to_numpy_of_ok (df : DataFrame) (cols : list string) :
  cols ⊆ columns df →
  ∃ X, to_numpy_of df cols = Ok X ∧ ncols X = length cols.
Proof.
  intros Hsub. unfold to_numpy_of.
  destruct (mapM_result_ok (λ c, col_index c (columns df)) cols) as (idx & -> & _).
  { intros c Hc. by apply col_index_ok, Hsub. }
  simpl. by eexists.
Qed.


Lemma to_numpy_of_raise (df : DataFrame) (cols : list string) (e : exn) :
  to_numpy_of df cols = Raise e → e = KeyError.
Proof.
  unfold to_numpy_of. destruct (mapM _ cols) as [idx|e'] eqn:Hm; simpl; [done|].
  intros [= ->]. apply mapM_result_raise in Hm as (c & _ & Hc).
  by eapply col_index_raise.
Qed.

(** ** Slices *)

Lemma slice_from_sublist {A} (start : Z) (l : list A) : slice_from start l `sublist_of` l.
Proof. apply sublist_drop. Qed.

Lemma slice_from_length {A} (start : Z) (l : list A) :
  length (slice_from start l) =
  (if (start <? 0)%Z then Z.to_nat (- start) `min` length l
   else length l - Z.to_nat start)%nat.
Proof.
  unfold slice_from. rewrite length_drop.
  destruct (Z.ltb_spec start 0); lia.
Qed.

(** ** Dictionaries *)

Lemma dict_set_fresh (k : string) (v : float) (d : list (string * float)) :
  k ∉ d.*1 → dict_set k v d = d ++ [(k, v)].
Proof.
  induction d as [|[k' v'] d IH]; simpl; [done|].
  intros Hk. apply not_elem_of_cons in Hk as [Hne Hk].
  destruct (decide (k = k')); [done|]. by rewrite IH.
Qed.

(** A dictionary built from pairs with distinct keys holds those pairs, in
    order. *)
Lemma dict_NoDup (kvs : list (string * float)) :
  NoDup kvs.*1 → dict kvs = kvs.
Proof.
  unfold dict. intros Hnd.
  enough (∀ d, NoDup (d ++ kvs).*1 →
            foldl (λ d kv, dict_set kv.1 kv.2 d) d kvs = d ++ kvs) as Hgen.
  { by apply (Hgen []). }
  clear Hnd. induction kvs as [|[k v] kvs IH]; intros d Hnd; simpl.
  - by rewrite app_nil_r.
  - rewrite dict_set_fresh.
    + rewrite IH; [by rewrite <-app_assoc|]. by rewrite <-app_assoc.
    + rewrite fmap_app, fmap_cons in Hnd. simpl in Hnd.
      apply NoDup_app in Hnd as (_ & Hdisj & _).
      intros Hk. apply (Hdisj k Hk). left.
Qed.

Lemma fst_zip_sublist {A B} (l : list A) (k : list B) :
  (zip l k).*1 `sublist_of` l.
Proof.
  revert k. induction l as [|x l IH]; intros [|y k]; simpl;
    try constructor; auto using sublist_nil_l.
Qed.

Lemma prune_zip_sublist (good : list string) (coefs : list float) :
  prune (zip good coefs) `sublist_of` good.
Proof.
  unfold prune. etrans; [|apply (fst_zip_sublist good coefs)].
  apply fmap_sublist, sublist_filter.
Qed.

Lemma elem_of_prune_zip (good : list string) (coefs : list float) (c : string) :
  c ∈ prune (zip good coefs) ↔
  ∃ i w, good !! i = Some c ∧ coefs !! i = Some w ∧ (coef_threshold <? abs w) = true.
Proof.
  unfold prune. rewrite list_elem_of_fmap. split.
  - intros ([c' w] & -> & Hin). apply list_elem_of_filter in Hin as [Hw Hin].
    apply list_elem_of_lookup in Hin as [i Hi].
    apply lookup_zip_with_Some in Hi as (c'' & w' & [= <- <-] & ? & ?).
    by exists i, w.
  - intros (i & w & Hc & Hw & Hlt). exists (c, w). split; [done|].
    apply list_elem_of_filter. split; [done|].
    apply list_elem_of_lookup. exists i.
    apply lookup_zip_with_Some. by exists c, w.
Qed.
(** ** The history of residuals *)

Lemma np_sum_bool_app (l k : list bool) :
  np_sum_bool (l ++ k) = (np_sum_bool l + np_sum_bool k)%nat.
Proof. apply sum_list_with_app. Qed.

Lemma np_sum_bool_replicate (n : nat) (b : bool) :
  np_sum_bool (replicate n b) = if b then n else 0%nat.
Proof.
  unfold np_sum_bool. induction n as [|n IH]; simpl; [by destruct b|].
  rewrite IH. by destruct b.
Qed.

Lemma map_replicate {A B} (f : A → B) (n : nat) (x : A) :
  map f (replicate n x) = replicate n (f x).
Proof. induction n; simpl; congruence. Qed.

(** The number of close entries in a history whose slots from [i] on still
    hold their initial zero. *)
Lemma count_close_history (r : float) (l : list float) (i n : nat) :
  drop i l = replicate n 0 →
  np_sum_bool (map (isclose r) l) =
  (np_sum_bool (map (isclose r) (take i l)) + (if isclose r 0 then n else 0))%nat.
Proof.
  intros Hdrop. rewrite <-(take_drop i l) at 1.
  rewrite map_app, np_sum_bool_app, Hdrop, map_replicate.
  by rewrite np_sum_bool_replicate.
Qed.

Section LoopFacts.
Context `{Collaborators}.
Variable sp : split.
Variable max_it : nat.
Variable eps : float.
Variable verbose : Z.

(** ** The candidate scorer *)

Lemma elem_of_candidates (good : list string) (c : string) :
  c ∈ candidates sp good ↔ c ∈ columns (df_train sp) ∧ c ∉ good.
Proof.
  unfold candidates.
  by rewrite set_iter_perm, elem_of_elements, elem_of_difference,
    !elem_of_list_to_set.
Qed.

Lemma NoDup_candidates (good : list string) : NoDup (candidates sp good).
Proof. unfold candidates. rewrite set_iter_perm. apply NoDup_elements. Qed.

Lemma scores_ok (target : list float) (cols : list string) :
  cols ⊆ columns (df_train sp) →
  ∃ w, scores sp target cols = Ok w ∧ length w = length cols.
Proof.
  intros Hsub. unfold scores.
  destruct (to_numpy_of_ok _ _ Hsub) as (X & -> & HX). simpl.
  eexists. split; [done|].
  unfold np_abs. by rewrite length_map, np_dot_length.
Qed.

Lemma scores_raise (target : list float) (cols : list string) (e : exn) :
  scores sp target cols = Raise e → e = KeyError.
Proof.
  unfold scores. destruct (to_numpy_of _ cols) eqn:HX; simpl; [done|].
  intros [= <-]. by eapply to_numpy_of_raise.
Qed.

(** Distinct positions of a duplicate-free list hold distinct elements. *)
Lemma NoDup_getitems {A} (l : list A) (idx : list nat) (k : list A) :
  NoDup l → NoDup idx →
  Forall2 (λ i x, getitem l i = Ok x) idx k → NoDup k.
Proof.
  intros Hl Hidx HF. induction HF as [|i x idx k Hix HF IH]; [constructor|].
  apply NoDup_cons in Hidx as [Hi Hidx]. constructor; [|by apply IH].
  intros Hx. apply list_elem_of_lookup in Hx as [n Hn].
  destruct (Forall2_lookup_r _ _ _ _ _ HF Hn) as (j & Hj & Hjx).
  unfold getitem in Hix, Hjx.
  destruct (l !! i) eqn:Hli; [|done]. destruct (l !! j) eqn:Hlj; [|done].
  simplify_eq. assert (i = j) as -> by eauto using NoDup_lookup.
  apply Hi. by eapply list_elem_of_lookup_2.
Qed.

Lemma getitems_elem_of {A} (l : list A) (idx : list nat) (k : list A) :
  Forall2 (λ i x, getitem l i = Ok x) idx k → k ⊆ l.
Proof.
  intros HF x Hx. apply list_elem_of_lookup in Hx as [n Hn].
  destruct (Forall2_lookup_r _ _ _ _ _ HF Hn) as (j & Hj & Hjx).
  unfold getitem in Hjx. destruct (l !! j) eqn:Hlj; [|done].
  simplify_eq. by eapply list_elem_of_lookup_2.
Qed.

Lemma candidate_scorer_ok (good : list string) (target : list float) :
  NoDup good →
  ∃ new,
    candidate_scorer sp good target = Ok (good ++ new) ∧
    NoDup (good ++ new) ∧
    new ⊆ candidates sp good ∧
    length new = taken (Z.of_nat (thr sp) - Z.of_nat (length good))
                       (length (candidates sp good)).
Proof.
  intros Hgood. unfold candidate_scorer.
  destruct (scores_ok target (candidates sp good)) as (w & -> & Hw).
  { intros c Hc. by apply elem_of_candidates in Hc as [? _]. }
  simpl.
  set (idx := slice_from _ (np_argsort w)).
  assert (idx `sublist_of` np_argsort w) as Hsub by apply slice_from_sublist.
  destruct (mapM_result_ok (getitem (candidates sp good)) idx) as (new & -> & HF).
  { intros i Hi. eapply elem_of_sublist in Hi; [|done].
    rewrite np_argsort_perm in Hi. apply elem_of_seq in Hi.
    unfold getitem. destruct (lookup_lt_is_Some_2 (candidates sp good) i) as [c ->];
      [lia|by eexists]. }
  simpl. exists new. split; [done|].
  assert (new ⊆ candidates sp good) as Hnew by by eapply getitems_elem_of.
  split_and!; [|done|].
  - apply NoDup_app. split_and!; [done| |].
    + intros c Hc Hc'. apply Hnew, elem_of_candidates in Hc' as [_ ?]. done.
    + eapply NoDup_getitems; [apply NoDup_candidates| |exact HF].
      eapply sublist_NoDup; [|exact Hsub]. rewrite np_argsort_perm. apply NoDup_seq.
  - rewrite <-(Forall2_length _ _ _ HF). unfold idx.
    rewrite slice_from_length.
    assert (length (np_argsort w) = length (candidates sp good)) as ->.
    { by rewrite np_argsort_perm, length_seq. }
    unfold taken.
    destruct (Z.ltb_spec (- (Z.of_nat (thr sp) - Z.of_nat (length good))) 0),
      (Z.ltb_spec 0 (Z.of_nat (thr sp) - Z.of_nat (length good))); lia.
Qed.

Lemma candidate_scorer_raise (good : list string) (target : list float) (e : exn) :
  candidate_scorer sp good target = Raise e → e ≠ DimensionMismatch.
Proof.
  unfold candidate_scorer.
  destruct (scores sp target _) as [w|e'] eqn:Hw; simpl.
  - destruct (mapM _ _) as [new|e''] eqn:Hm; simpl; [done|].
    intros [= ->]. apply mapM_result_raise in Hm as (i & _ & Hi).
    unfold getitem in Hi. destruct (_ !! i); [done|]. by simplify_eq.
  - intros [= ->]. by apply scores_raise in Hw as ->.
Qed.

End LoopFacts.

Section LoopBody.
Context `{Collaborators}.
Variable sp : split.
Variable max_it : nat.
Variable eps : float.
Variable verbose : Z.

(** ** One iteration *)

(** What a completed iteration computed, stage by stage. *)
Lemma loop_body_inv (s s' : state) :
  loop_body sp eps verbose s = Ok s' →
  ∃ ext X Xt,
    candidate_scorer sp (good_cols s) (new_target s) = Ok ext ∧
    to_numpy_of (df_train sp) ext = Ok X ∧
    to_numpy_of (df_test sp) ext = Ok Xt ∧
    let reg := lasso_fit eps X (target_train sp) in
    let r := np_mean (np_abs (np_sub (target_test sp) (predict reg Xt))) in
    it s' = S (it s) ∧
    good_cols s' = prune (dict (zip ext (coef_ reg))) ∧
    new_target s' = np_sub (target_train sp) (predict reg X) ∧
    residual s' = r ∧
    last_residuals s' = <[it s := residual s]> (last_residuals s) ∧
    best_cols s' = (if r <? smallest_residual s then good_cols s' else best_cols s) ∧
    smallest_residual s' = (if r <? smallest_residual s then r else smallest_residual s).
Proof.
  unfold loop_body.
  destruct (candidate_scorer _ _ _) as [ext|] eqn:Hext; simpl; [|done].
  destruct (to_numpy_of (df_train sp) ext) as [X|] eqn:HX; simpl; [|done].
  destruct (to_numpy_of (df_test sp) ext) as [Xt|] eqn:HXt; simpl; [|done].
  intros [= <-]. exists ext, X, Xt. simpl. by split_and!.
Qed.

Lemma loop_body_it (s s' : state) :
  loop_body sp eps verbose s = Ok s' → it s' = S (it s).
Proof. intros (ext & X & Xt & _ & _ & _ & ? & _)%loop_body_inv. done. Qed.

(** An iteration never raises the error of the split. *)
Lemma loop_body_raise (s : state) (e : exn) :
  loop_body sp eps verbose s = Raise e → e ≠ DimensionMismatch.
Proof.
  unfold loop_body.
  destruct (candidate_scorer _ _ _) as [ext|e1] eqn:Hext; simpl.
  - destruct (to_numpy_of (df_train sp) ext) as [X|e2] eqn:HX; simpl.
    + destruct (to_numpy_of (df_test sp) ext) as [Xt|e3] eqn:HXt; simpl; [done|].
      intros [= <-]. by apply to_numpy_of_raise in HXt as ->.
    + intros [= <-]. by apply to_numpy_of_raise in HX as ->.
  - intros [= <-]. by eapply candidate_scorer_raise.
Qed.


(** ** The loop *)

(** The function computes the relation: [max_it - it s] iterations are all
    the guard allows. *)
Lemma loop_adequate (fuel : nat) (s : state) :
  (max_it - it s ≤ fuel)%nat →
  loop_exec sp max_it eps verbose s (loop sp max_it eps verbose fuel s).
Proof.
  revert s. induction fuel as [|fuel IH]; intros s Hfuel; simpl.
  - destruct (loop_cond max_it s) eqn:Hc; [|by constructor].
    unfold loop_cond in Hc. apply andb_true_iff in Hc as [Hlt%bool_decide_eq_true _].
    lia.
  - destruct (loop_cond max_it s) eqn:Hc; [|by constructor].
    destruct (loop_body sp eps verbose s) as [s'|e] eqn:Hb; [|by constructor].
    apply exec_iter; [done..|]. apply IH.
    apply loop_body_it in Hb. lia.
Qed.


(** The loop comes to an end: every state has an outcome, reached in at
    most [max_it - it s] iterations. *)
Lemma loop_exec_total (s : state) :
  ∃ x, loop_exec sp max_it eps verbose s x ∧ (iterations x ≤ max_it - it s + 1)%nat.
Proof.
  exists (loop sp max_it eps verbose (max_it - it s) s).
  split; [by apply loop_adequate|].
  generalize (max_it - it s)%nat as fuel. intros fuel. revert s.
  induction fuel as [|fuel IH]; intros s; simpl.
  - destruct (loop_cond max_it s); simpl; lia.
  - destruct (loop_cond max_it s); simpl; [|lia].
    destruct (loop_body sp eps verbose s) as [s'|e]; simpl; [|lia].
    specialize (IH s'). lia.
Qed.

(** An exception of the loop is never the error of the split. *)
Lemma loop_raise (fuel : nat) (s : state) (e : exn) :
  final (loop sp max_it eps verbose fuel s) = Raise e → e ≠ DimensionMismatch.
Proof.
  revert s. induction fuel as [|fuel IH]; intros s; simpl.
  - by destruct (loop_cond max_it s).
  - destruct (loop_cond max_it s); [|done].
    destruct (loop_body sp eps verbose s) as [s'|e'] eqn:Hb; simpl.
    + apply IH.
    + intros [= <-]. by eapply loop_body_raise.
Qed.

(** ** The invariant of the loop *)

Lemma init_inv (out : list line) : state_inv sp max_it (init sp max_it out).
Proof.
  constructor; simpl.
  - constructor.
  - intros c ?%elem_of_nil. done.
  - lia.
  - unfold np_zeros. by rewrite length_replicate.
  - unfold np_zeros. by rewrite Nat.sub_0_r.
Qed.

Lemma loop_body_preserves_inv (s s' : state) :
  state_inv sp max_it s →
  loop_cond max_it s = true →
  loop_body sp eps verbose s = Ok s' →
  state_inv sp max_it s'.
Proof.
  intros [Hnd Hsub Hit Hlen Hdrop] Hc Hb.
  unfold loop_cond in Hc. apply andb_true_iff in Hc as [Hlt%bool_decide_eq_true _].
  destruct (candidate_scorer_ok sp (good_cols s) (new_target s) Hnd)
    as (new & Hext & Hnd' & Hnew & _).
  apply loop_body_inv in Hb
    as (ext & X & Xt & Hext' & HX & HXt & Hit' & Hgood & _ & _ & Hhist & _).
  rewrite Hext in Hext'. injection Hext' as <-.
  assert (NoDup (zip (good_cols s ++ new)
                   (coef_ (lasso_fit eps X (target_train sp)))).*1) as Hndz.
  { eapply sublist_NoDup; [exact Hnd'|]. apply fst_zip_sublist. }
  rewrite (dict_NoDup _ Hndz) in Hgood.
  pose proof (prune_zip_sublist (good_cols s ++ new)
                (coef_ (lasso_fit eps X (target_train sp)))) as Hsl.
  rewrite <-Hgood in Hsl.
  constructor.
  - eapply sublist_NoDup; [exact Hnd'|done].
  - intros c Hc. eapply elem_of_sublist in Hc; [|done].
    apply elem_of_app in Hc as [Hc|Hc]; [by apply Hsub|].
    by apply Hnew, elem_of_candidates in Hc as [? _].
  - lia.
  - by rewrite Hhist, length_insert.
  - rewrite Hhist, Hit', drop_insert_lt by lia.
    rewrite <-(Nat.add_1_r (it s)), <-drop_drop, Hdrop, drop_replicate.
    f_equal. lia.
Qed.

Lemma reachable_inv (out : list line) (s : state) :
  reachable sp max_it eps verbose out s → state_inv sp max_it s.
Proof.
  induction 1 as [|s s' _ IH Hc Hb]; [apply init_inv|].
  by eapply loop_body_preserves_inv.
Qed.

End LoopBody.

(** ** The function *)

Section SelectFeaturesFacts.
Context `{Collaborators}.

Lemma len_scale (df : DataFrame) : len (scale df) = len df.
Proof. unfold len, scale; simpl. by rewrite length_map, fit_transform_rows. Qed.

Lemma loop_exit (sp : split) (max_it : nat) (eps : float) (verbose : Z)
    (fuel : nat) (s : state) :
  loop_cond max_it s = false →
  loop sp max_it eps verbose fuel s = mk_run 0 [] (Ok s).
Proof. intros Hc. destruct fuel; simpl; by rewrite Hc. Qed.

(** Without an improvement on the seed the best set stays empty. *)
Lemma loop_no_improvement (sp : split) (max_it : nat) (eps : float) (verbose : Z)
    (seed : float) (fuel : nat) (s sf : state) :
  smallest_residual s = seed →
  best_cols s = [] →
  Forall (λ r, (r <? seed) = false) (residuals (loop sp max_it eps verbose fuel s)) →
  final (loop sp max_it eps verbose fuel s) = Ok sf →
  best_cols sf = [].
Proof.
  revert s. induction fuel as [|fuel IH]; intros s Hseed Hbest; simpl.
  - destruct (loop_cond max_it s); simpl; by intros _ [= <-].
  - destruct (loop_cond max_it s); simpl; [|by intros _ [= <-]].
    destruct (loop_body sp eps verbose s) as [s'|e] eqn:Hb; simpl; [|done].
    intros [Hr HF]%Forall_cons. apply IH; [| |done].
    + apply loop_body_inv in Hb as (ext & X & Xt & _ & _ & _ & Hs').
      destruct Hs' as (_ & _ & _ & Hres & _ & _ & ->).
      rewrite <-Hres, Hseed, Hr. done.
    + apply loop_body_inv in Hb as (ext & X & Xt & _ & _ & _ & Hs').
      destruct Hs' as (_ & _ & _ & Hres & _ & -> & _).
      rewrite <-Hres, Hseed, Hr. done.
Qed.


End SelectFeaturesFacts.

Section Reach.
Context `{Collaborators}.
Variable sp : split.
Variable max_it : nat.
Variable eps : float.
Variable verbose : Z.

(** The state the loop ends in is one it reached at its guard. *)
Lemma reachable_loop (out : list line) (fuel : nat) (s sf : state) :
  reachable sp max_it eps verbose out s →
  final (loop sp max_it eps verbose fuel s) = Ok sf →
  reachable sp max_it eps verbose out sf.
Proof.
  revert s. induction fuel as [|fuel IH]; intros s Hs; simpl.
  - destruct (loop_cond max_it s); simpl; by intros [= <-].
  - destruct (loop_cond max_it s) eqn:Hc; simpl; [|by intros [= <-]].
    destruct (loop_body sp eps verbose s) as [s'|e] eqn:Hb; simpl; [|done].
    apply IH. by eapply reach_step.
Qed.



End Reach.

(** * The claims *)

(** ** C1: a non-positive count of requested candidates *)

(** C1, on the frame [df10]: after the first iteration the working set holds
    [thr = 4] columns, so the second iteration requests [4 - 4 = 0] new
    candidates; the slice [np.argsort(w)[-0:]] of line 73 is the whole
    ranking, and the scorer adds the one remaining candidate instead of
    none. *)
Theorem scorer_at_cap_adds_candidates :
  ∃ s1 : state,
    loop_body (H:=Example.collaborators) Example.sp10 1e-16 0
      (init (H:=Example.collaborators) Example.sp10 100 []) = Ok s1 ∧
    good_cols s1 = ["d"; "c"; "b"; "a"] ∧
    (Z.of_nat (thr Example.sp10) - Z.of_nat (length (good_cols s1)) = 0)%Z ∧
    loop_cond 100 s1 = true ∧
    candidates (H:=Example.collaborators) Example.sp10 (good_cols s1) = ["e"] ∧
    candidate_scorer (H:=Example.collaborators) Example.sp10
      (good_cols s1) (new_target s1) = Ok ["d"; "c"; "b"; "a"; "e"].
Proof.
  eexists. split; [vm_compute; reflexivity|].
  split_and!; vm_compute; reflexivity.
Qed.

(** ** C2: the size of the returned set *)

(** C2, on the frame [df10] of ten rows and five columns: the cap is
    [thr = floor(0.5 * 8) = 4], and the function returns five columns. *)
Theorem returned_set_exceeds_cap :
  len Example.df10 = 10%nat ∧
  length Example.target10 = 10%nat ∧
  int_05 (max 3 (int_08 (len Example.df10))) = 4%nat ∧
  returned (select_features (H:=Example.collaborators)
              Example.df10 Example.target10 true 100 1e-16 0)
    = Ok ["d"; "c"; "b"; "a"; "e"].
Proof. split_and!; vm_compute; reflexivity. Qed.

(** ** C3: when the loop exits *)

(** C3 as stated fails on a zero baseline: no iteration has run and nothing
    was recorded, yet the guard of the loop is false. *)
Lemma loop_exit_counterexample :
  it (init (H:=Example.collaborators) Example.sp10_flat 100 []) = 0%nat ∧
  loop_cond 100 (init (H:=Example.collaborators) Example.sp10_flat 100 []) = false ∧
  ¬ spec_loop_exit 100 (init (H:=Example.collaborators) Example.sp10_flat 100 []).
Proof.
  split_and!; [reflexivity|vm_compute; reflexivity|].
  unfold spec_loop_exit. simpl. intros [?|?]; lia.
Qed.

(** C3, amended: at the guard the loop exits exactly when [it >= max_it] or
    at least two of the [max_it] slots of the history are close to the
    current residual, where the slots written by prior iterations are the
    first [it] and each of the [max_it - it] slots not yet written holds 0
    and counts whenever the current residual is close to 0. *)
Theorem loop_exit_exact `{Collaborators} (sp : split) (max_it : nat) (eps : float)
    (verbose : Z) (out : list line) (s : state) :
  reachable sp max_it eps verbose out s →
  loop_cond max_it s = false ↔
    (max_it ≤ it s)%nat ∨
    (2 ≤ np_sum_bool (map (isclose (residual s)) (take (it s) (last_residuals s)))
         + (if isclose (residual s) 0 then max_it - it s else 0))%nat.
Proof.
  intros [_ _ _ _ Hdrop]%reachable_inv.
  unfold loop_cond.
  rewrite (count_close_history _ _ _ _ Hdrop).
  rewrite andb_false_iff, negb_false_iff, bool_decide_eq_false, bool_decide_eq_true.
  lia.
Qed.

Lemma loop_exit_exact_witness :
  (it Example.state10_scaled_final = 4%nat ∧
   take 4 (last_residuals Example.state10_scaled_final)
     = [3; 0.99999999999999956; 0.69230769230769296; 0.69230769230769296] ∧
   residual Example.state10_scaled_final = 0.69230769230769296) ∧
  (loop_cond 100 Example.state10_scaled_final = false ↔
    (100 ≤ it Example.state10_scaled_final)%nat ∨
    (2 ≤ np_sum_bool
           (map (isclose (residual Example.state10_scaled_final))
              (take (it Example.state10_scaled_final)
                 (last_residuals Example.state10_scaled_final)))
         + (if isclose (residual Example.state10_scaled_final) 0
            then 100 - it Example.state10_scaled_final
            else 0))%nat).
Proof.
  split; [split_and!; vm_compute; reflexivity|].
  apply (loop_exit_exact (H:=Example.collaborators)
           Example.sp10_scaled 100 1e-16 0 []).
  apply (reachable_loop (H:=Example.collaborators)
           Example.sp10_scaled 100 1e-16 0 [] 100
           (init (H:=Example.collaborators) Example.sp10_scaled 100 [])).
  - apply reach_init.
  - vm_compute. reflexivity.
Defined.
(** ** C4: a baseline residual close to zero *)

(** C4: with [max_it >= 2], a target as long as the frame and a baseline
    residual [mean(|target_test|)] that [np.isclose] finds close to 0, every
    one of the [max_it] zero-initialised slots of the history is a close
    entry, no iteration runs and the empty list is returned. *)
Theorem zero_baseline_skips_loop `{Collaborators} (df : DataFrame)
    (target : list float) (df_scaled : bool) (max_it : nat) (eps : float)
    (verbose : Z) :
  (2 ≤ max_it)%nat →
  length target = len df →
  isclose (np_mean (np_abs (target_test
             (make_split (if df_scaled then df else scale df) target)))) 0 = true →
  returned (select_features df target df_scaled max_it eps verbose) = Ok [] ∧
  n_iterations (select_features df target df_scaled max_it eps verbose) = 0%nat ∧
  np_sum_bool (map (isclose (np_mean (np_abs (target_test
                 (make_split (if df_scaled then df else scale df) target)))))
                 (np_zeros max_it)) = max_it.
Proof.
  intros Hmax Hlen Hclose.
  set (df' := if df_scaled then df else scale df) in *.
  assert (length target = len df') as Hlen'.
  { unfold df'. destruct df_scaled; [done|by rewrite len_scale]. }
  assert (np_sum_bool (map (isclose (np_mean (np_abs (target_test
            (make_split df' target))))) (np_zeros max_it)) = max_it) as Hcount.
  { unfold np_zeros. by rewrite map_replicate, np_sum_bool_replicate, Hclose. }
  assert (∀ out, loop_cond max_it (init (make_split df' target) max_it out) = false)
    as Hexit.
  { intros out. unfold loop_cond, init. cbn [it residual last_residuals].
    rewrite Hcount.
    rewrite andb_false_iff, negb_false_iff, bool_decide_eq_true. by right. }
  unfold select_features. fold df'. rewrite (split_manager_ok _ _ Hlen').
  rewrite loop_exit by apply Hexit.
  split_and!; [by destruct (truthy verbose)|by destruct (truthy verbose)|done].
Qed.

Lemma zero_baseline_skips_loop_witness :
  returned (select_features (H:=Example.collaborators)
              Example.df10 Example.target10_flat true 100 1e-16 0) = Ok [] ∧
  n_iterations (select_features (H:=Example.collaborators)
              Example.df10 Example.target10_flat true 100 1e-16 0) = 0%nat ∧
  np_sum_bool (map (isclose (np_mean (Collaborators:=Example.collaborators)
                 (np_abs (target_test
                   (make_split (if true then Example.df10
                               else scale (H:=Example.collaborators) Example.df10)
                      Example.target10_flat)))))
                 (np_zeros 100)) = 100%nat.
Proof.
  apply (zero_baseline_skips_loop (H:=Example.collaborators)
           Example.df10 Example.target10_flat true 100 1e-16 0).
  - lia.
  - reflexivity.
  - vm_compute. reflexivity.
Defined.

(** ** C6: the dimension-mismatch error *)

(** C6: the function raises the dimension-mismatch error exactly when the
    train or the test part of the target differs in length from the train
    or the test rows, which for a frame of at least four rows is exactly a
    target whose length differs from the number of rows; and when it raises
    it, no iteration has run. *)
Theorem dimension_mismatch_exact `{Collaborators} (df : DataFrame)
    (target : list float) (df_scaled : bool) (max_it : nat) (eps : float)
    (verbose : Z) :
  (returned (select_features df target df_scaled max_it eps verbose)
     = Raise DimensionMismatch ↔
   len (df_train (make_split (if df_scaled then df else scale df) target))
     ≠ length (target_train (make_split (if df_scaled then df else scale df) target)) ∨
   len (df_test (make_split (if df_scaled then df else scale df) target))
     ≠ length (target_test (make_split (if df_scaled then df else scale df) target))) ∧
  ((4 ≤ len df)%nat →
   returned (select_features df target df_scaled max_it eps verbose)
     = Raise DimensionMismatch ↔ length target ≠ len df) ∧
  (returned (select_features df target df_scaled max_it eps verbose)
     = Raise DimensionMismatch →
   n_iterations (select_features df target df_scaled max_it eps verbose) = 0%nat ∧
   test_residuals (select_features df target df_scaled max_it eps verbose) = []).
Proof.
  set (df' := if df_scaled then df else scale df).
  assert (len df' = len df) as Hlen'.
  { unfold df'. destruct df_scaled; [done|by rewrite len_scale]. }
  assert (returned (select_features df target df_scaled max_it eps verbose)
            = Raise DimensionMismatch ↔
          split_lengths_agree (make_split df' target) = false) as Hraise.
  { unfold select_features, split_manager. fold df'.
    destruct (split_lengths_agree (make_split df' target)); simpl; [|done].
    split; [|done].
    destruct (final (loop _ _ _ _ _ _)) eqn:Hf; simpl; [done|].
    intros [= ->]. by apply loop_raise in Hf. }
  split_and!.
  - rewrite Hraise, <-not_true_iff_false, split_lengths_agree_spec.
    split; [|tauto].
    intros Hn.
    destruct (decide (len (df_train (make_split df' target))
                      = length (target_train (make_split df' target)))); [|by left].
    right. intros ?. by apply Hn.
  - intros Hn. rewrite Hraise, <-not_true_iff_false.
    rewrite split_lengths_agree_ge4 by lia. by rewrite Hlen'.
  - intros Hr. apply Hraise in Hr.
    unfold select_features, split_manager. fold df'. by rewrite Hr.
Qed.

Lemma dimension_mismatch_exact_witness :
  (4 ≤ len Example.df10)%nat ∧
  length (take 9 Example.target10) ≠ len Example.df10 ∧
  returned (select_features (H:=Example.collaborators)
              Example.df10 (take 9 Example.target10) false 100 1e-16 0)
    = Raise DimensionMismatch ∧
  n_iterations (select_features (H:=Example.collaborators)
              Example.df10 (take 9 Example.target10) false 100 1e-16 0) = 0%nat.
Proof.
  assert (4 ≤ len Example.df10)%nat as Hn by (vm_compute; lia).
  assert (length (take 9 Example.target10) ≠ len Example.df10) as Hlen
    by (vm_compute; lia).
  destruct (dimension_mismatch_exact (H:=Example.collaborators)
              Example.df10 (take 9 Example.target10) false 100 1e-16 0)
    as (_ & Hge4 & Hno).
  pose proof (proj2 (Hge4 Hn) Hlen) as Hr.
  split_and!; [exact Hn|exact Hlen|exact Hr|exact (proj1 (Hno Hr))].
Defined.

(** ** C9: no iteration budget *)

(** C9: called with [max_it = 0] the function runs no iteration, and on a
    target as long as the frame it returns the empty list. *)
Theorem max_it_zero_returns_empty `{Collaborators} (df : DataFrame)
    (target : list float) (df_scaled : bool) (eps : float) (verbose : Z) :
  n_iterations (select_features df target df_scaled 0 eps verbose) = 0%nat ∧
  (length target = len df →
   returned (select_features df target df_scaled 0 eps verbose) = Ok []).
Proof.
  set (df' := if df_scaled then df else scale df).
  assert (len df' = len df) as Hlen'.
  { unfold df'. destruct df_scaled; [done|by rewrite len_scale]. }
  split.
  - unfold select_features. fold df'.
    destruct (split_manager df' target) as [sp|e]; [|done].
    simpl. unfold loop_cond. simpl. by destruct (truthy verbose).
  - intros Hlen. unfold select_features. fold df'.
    rewrite split_manager_ok by congruence.
    simpl. unfold loop_cond. simpl. by destruct (truthy verbose).
Qed.

Lemma max_it_zero_returns_empty_witness :
  n_iterations (select_features (H:=Example.collaborators)
              Example.df10 Example.target10 false 0 1e-16 1) = 0%nat ∧
  returned (select_features (H:=Example.collaborators)
              Example.df10 Example.target10 false 0 1e-16 1) = Ok [].
Proof.
  destruct (max_it_zero_returns_empty (H:=Example.collaborators)
              Example.df10 Example.target10 false 1e-16 1) as [Hn Hr].
  split; [exact Hn|apply Hr; reflexivity].
Defined.
(** ** C7: the best residual and the best set *)

(** C7: the best residual starts at 10 times the baseline
    [mean(|target_test|)] with an empty best set; an iteration whose
    validation residual is strictly below the best residual sets the best
    residual to it and the best set to the pruned working set, and any other
    iteration leaves both as they were, so the best residual never increases;
    and when no iteration's residual is below the seed the returned set is
    empty. *)
Theorem best_set_tracking `{Collaborators} (df : DataFrame)
    (target : list float) (df_scaled : bool) (max_it : nat) (eps : float)
    (verbose : Z) :
  (∀ out,
     smallest_residual
       (init (make_split (if df_scaled then df else scale df) target) max_it out)
     = 10 * np_mean (np_abs (target_test
               (make_split (if df_scaled then df else scale df) target))) ∧
     best_cols
       (init (make_split (if df_scaled then df else scale df) target) max_it out)
     = []) ∧
  (∀ s s',
     loop_body (make_split (if df_scaled then df else scale df) target)
       eps verbose s = Ok s' →
     (smallest_residual s' = smallest_residual s ∨
      (smallest_residual s' <? smallest_residual s) = true) ∧
     (if residual s' <? smallest_residual s
      then best_cols s' = good_cols s' ∧ smallest_residual s' = residual s'
      else best_cols s' = best_cols s ∧ smallest_residual s' = smallest_residual s)) ∧
  (∀ cols,
     returned (select_features df target df_scaled max_it eps verbose) = Ok cols →
     Forall (λ r, (r <? 10 * np_mean (np_abs (target_test
                     (make_split (if df_scaled then df else scale df) target))))
                  = false)
       (test_residuals (select_features df target df_scaled max_it eps verbose)) →
     cols = []).
Proof.
  set (df' := if df_scaled then df else scale df).
  split_and!.
  - done.
  - intros s s' Hb.
    apply loop_body_inv in Hb as (ext & X & Xt & _ & _ & _ & Hs').
    destruct Hs' as (_ & _ & _ & Hres & _ & Hbest & Hsmall).
    rewrite <-Hres in Hbest, Hsmall. rewrite Hbest, Hsmall.
    destruct (residual s' <? smallest_residual s) eqn:Hlt; [|by auto].
    split; [by right|done].
  - intros cols. unfold select_features, split_manager. fold df'.
    destruct (negb (split_lengths_agree (make_split df' target))); simpl; [done|].
    set (out := if negb df_scaled && truthy verbose then _ else _).
    destruct (final (loop _ _ _ _ _ _)) as [sf|e] eqn:Hf; simpl; [|done].
    intros [= <-] HF.
    eapply loop_no_improvement; [| |exact HF|exact Hf]; done.
Qed.

Lemma best_set_tracking_witness :
  ∃ s1 s2 : state,
    loop_body (H:=Example.collaborators) Example.sp10 1e-16 0
      (init (H:=Example.collaborators) Example.sp10 100 []) = Ok s1 ∧
    loop_body (H:=Example.collaborators) Example.sp10 1e-16 0 s1 = Ok s2 ∧
    smallest_residual (init (H:=Example.collaborators) Example.sp10 100 []) = 30 ∧
    (smallest_residual s1, best_cols s1) = (1, ["d"; "c"; "b"; "a"]) ∧
    (smallest_residual s2, best_cols s2) = (0, ["d"; "c"; "b"; "a"; "e"]) ∧
    (smallest_residual s2 = smallest_residual s1 ∨
     (smallest_residual s2 <? smallest_residual s1) = true).
Proof.
  destruct (best_set_tracking (H:=Example.collaborators)
              Example.df10 Example.target10 true 100 1e-16 0) as (_ & Hstep & _).
  eexists _, _. split; [vm_compute; reflexivity|].
  split; [vm_compute; reflexivity|].
  split_and!; [vm_compute; reflexivity..|].
  refine (proj1 (Hstep _ _ _)). vm_compute. reflexivity.
Defined.

(** ** C8: pruning and re-selection *)



(** ** C10: determinism *)


(** ** Further properties *)




(** ** The split on frames of any size *)

Lemma int_08_le n : (int_08 n ≤ n)%nat.
Proof. unfold int_08. apply Nat.Div0.div_le_upper_bound. lia. Qed.




(** X4: the test block of a frame with at least one row is never empty and
    the train block has [min(3, n)] rows or more; on a frame of at most
    three rows the train block is the whole frame and the test block is its
    last row, so the two overlap. *)
Theorem split_small_frames (df : DataFrame) (target : list float) :
  ((1 ≤ len df)%nat →
   (1 ≤ len (df_test (make_split df target)))%nat ∧
   (3 `min` len df ≤ len (df_train (make_split df target)))%nat) ∧
  ((len df ≤ 3)%nat →
   rows (df_train (make_split df target)) = rows df ∧
   rows (df_test (make_split df target)) = drop (len df - 1) (rows df)).
Proof.
  pose proof (int_08_le (len df)). pose proof (int_08_lt (len df)).
  split.
  - intros Hn. rewrite len_df_test, len_df_train. lia.
  - intros Hn. simpl. split.
    + apply take_ge. unfold len in *. lia.
    + f_equal. unfold int_08.
      destruct (len df) as [|[|[|[|n]]]]; [reflexivity..|lia].
Qed.

Lemma split_small_frames_witness :
  (1 ≤ len (df_test (make_split Example.df3 Example.target3)))%nat ∧
  rows (df_train (make_split Example.df3 Example.target3)) = rows Example.df3 ∧
  rows (df_test (make_split Example.df3 Example.target3))
    = drop (len Example.df3 - 1) (rows Example.df3).
Proof.
  destruct (split_small_frames Example.df3 Example.target3) as [H1 H3].
  split; [apply H1; vm_compute; lia|].
  apply H3. vm_compute. lia.
Defined.

(** ** The diagnostic output *)

(** A state without what it printed. *)
Definition silent (s : state) : state :=
  {| it := it s;
     good_cols := good_cols s;
     best_cols := best_cols s;
     new_target := new_target s;
     residual := residual s;
     last_residuals := last_residuals s;
     smallest_residual := smallest_residual s;
     stdout := [] |}.

(** Two results that differ in the printed lines only. *)
Definition same_result (r1 r2 : result state) : Prop :=
  match r1, r2 with
  | Ok s1, Ok s2 => silent s1 = silent s2
  | Raise e1, Raise e2 => e1 = e2
  | _, _ => False
  end.

Section Verbose.
Context `{Collaborators}.
Variable sp : split.
Variable max_it : nat.
Variable eps : float.

Lemma loop_cond_silent (s1 s2 : state) :
  silent s1 = silent s2 → loop_cond max_it s1 = loop_cond max_it s2.
Proof. unfold silent, loop_cond. intros [= -> _ _ _ -> -> _]. done. Qed.

Lemma loop_body_silent (v1 v2 : Z) (s1 s2 : state) :
  silent s1 = silent s2 →
  same_result (loop_body sp eps v1 s1) (loop_body sp eps v2 s2).
Proof.
  unfold silent. intros [= Hit Hgood Hbest Htarget Hres Hhist Hsmall].
  unfold loop_body. rewrite Hit, Hgood, Hbest, Htarget, Hres, Hhist, Hsmall.
  destruct (candidate_scorer sp (good_cols s2) (new_target s2)) as [ext|e];
    simpl; [|done].
  destruct (to_numpy_of (df_train sp) ext) as [X|e]; simpl; [|done].
  destruct (to_numpy_of (df_test sp) ext) as [Xt|e]; simpl; [|done].
  done.
Qed.

Lemma loop_silent (v1 v2 : Z) (fuel : nat) (s1 s2 : state) :
  silent s1 = silent s2 →
  iterations (loop sp max_it eps v1 fuel s1)
    = iterations (loop sp max_it eps v2 fuel s2) ∧
  residuals (loop sp max_it eps v1 fuel s1)
    = residuals (loop sp max_it eps v2 fuel s2) ∧
  same_result (final (loop sp max_it eps v1 fuel s1))
              (final (loop sp max_it eps v2 fuel s2)).
Proof.
  revert s1 s2. induction fuel as [|fuel IH]; intros s1 s2 Hs; simpl;
    rewrite (loop_cond_silent s1 s2 Hs).
  - by destruct (loop_cond max_it s2).
  - destruct (loop_cond max_it s2); [|done].
    pose proof (loop_body_silent v1 v2 s1 s2 Hs) as Hb.
    destruct (loop_body sp eps v1 s1) as [s1'|e1],
      (loop_body sp eps v2 s2) as [s2'|e2]; simpl in Hb; try done.
    destruct (IH s1' s2' Hb) as (Hi & Hr & Hf). simpl.
    assert (residual s1' = residual s2') as ->.
    { unfold silent in Hb. by injection Hb. }
    by rewrite Hi, Hr.
Qed.

(** Without verbosity an iteration prints nothing. *)
Lemma loop_quiet (fuel : nat) (s sf : state) :
  final (loop sp max_it eps 0 fuel s) = Ok sf → stdout sf = stdout s.
Proof.
  revert s. induction fuel as [|fuel IH]; intros s; simpl.
  - destruct (loop_cond max_it s); simpl; by intros [= <-].
  - destruct (loop_cond max_it s); simpl; [|by intros [= <-]].
    destruct (loop_body sp eps 0 s) as [s'|e] eqn:Hb; simpl; [|done].
    intros Hf. rewrite (IH _ Hf).
    unfold loop_body in Hb.
    destruct (candidate_scorer _ _ _); simpl in Hb; [|done].
    destruct (to_numpy_of (df_train sp) _); simpl in Hb; [|done].
    destruct (to_numpy_of (df_test sp) _); simpl in Hb; [|done].
    by injection Hb as <-.
Qed.

(** The counter of the final state counts the iterations. *)
Lemma loop_it (verbose : Z) (fuel : nat) (s sf : state) :
  final (loop sp max_it eps verbose fuel s) = Ok sf →
  it sf = (it s + iterations (loop sp max_it eps verbose fuel s))%nat ∧
  length (residuals (loop sp max_it eps verbose fuel s))
    = iterations (loop sp max_it eps verbose fuel s).
Proof.
  revert s. induction fuel as [|fuel IH]; intros s; simpl.
  - destruct (loop_cond max_it s); simpl; intros [= <-]; split; lia.
  - destruct (loop_cond max_it s); simpl; [|intros [= <-]; split; lia].
    destruct (loop_body sp eps verbose s) as [s'|e] eqn:Hb; simpl; [|done].
    intros Hf. destruct (IH _ Hf) as [Hit Hlen].
    apply loop_body_it in Hb. split; lia.
Qed.

End Verbose.

(** X5: the verbosity level changes what is printed and nothing else: two
    calls that differ in [verbose] only end with the same list or the same
    exception after the same iterations and residuals; with [verbose = 0]
    nothing is printed, and with any other level a call that returns ends
    its output with the line of lines 88-89, which reports the number of
    iterations and the size of the returned list. *)
Theorem verbose_only_prints `{Collaborators} (df : DataFrame)
    (target : list float) (df_scaled : bool) (max_it : nat) (eps : float) :
  (∀ v1 v2 : Z,
     returned (select_features df target df_scaled max_it eps v1)
       = returned (select_features df target df_scaled max_it eps v2) ∧
     n_iterations (select_features df target df_scaled max_it eps v1)
       = n_iterations (select_features df target df_scaled max_it eps v2) ∧
     test_residuals (select_features df target df_scaled max_it eps v1)
       = test_residuals (select_features df target df_scaled max_it eps v2)) ∧
  printed (select_features df target df_scaled max_it eps 0) = [] ∧
  (∀ (v : Z) (cols : list string),
     v ≠ 0%Z →
     returned (select_features df target df_scaled max_it eps v) = Ok cols →
     ∃ r, last (printed (select_features df target df_scaled max_it eps v))
          = Some (IterationDone
                    (n_iterations (select_features df target df_scaled max_it eps v))
                    (length cols) r)).
Proof.
  set (df' := if df_scaled then df else scale df).
  split_and!.
  - intros v1 v2. unfold select_features. fold df'.
    destruct (split_manager df' target) as [sp|e]; [|done].
    set (out1 := if negb df_scaled && truthy v1 then _ else _).
    set (out2 := if negb df_scaled && truthy v2 then _ else _).
    destruct (loop_silent sp max_it eps v1 v2 max_it
                (init sp max_it out1) (init sp max_it out2))
      as (Hi & Hr & Hf); [done|].
    destruct (final (loop sp max_it eps v1 max_it (init sp max_it out1)))
      as [s1|e1],
      (final (loop sp max_it eps v2 max_it (init sp max_it out2)))
      as [s2|e2]; simpl in Hf; try done; simpl.
    + unfold silent in Hf. injection Hf as _ _ Hbest _ _ _ _.
      by rewrite Hbest, Hi, Hr.
    + by rewrite Hf, Hi, Hr.
  - unfold select_features. fold df'.
    destruct (split_manager df' target) as [sp|e];
      [|by rewrite andb_false_r].
    rewrite andb_false_r.
    destruct (final (loop sp max_it eps 0 max_it (init sp max_it [])))
      as [sf|e] eqn:Hf; simpl; [|done].
    by rewrite (loop_quiet _ _ _ _ _ _ Hf).
  - intros v cols Hv. unfold select_features. fold df'.
    destruct (split_manager df' target) as [sp|e]; [|done].
    set (out := if negb df_scaled && truthy v then _ else _).
    destruct (final (loop sp max_it eps v max_it (init sp max_it out)))
      as [sf|e] eqn:Hf; simpl; [|done].
    intros [= <-].
    assert (truthy v = true) as ->.
    { unfold truthy. by apply negb_true_iff, Z.eqb_neq. }
    destruct (loop_it _ _ _ _ _ _ _ Hf) as [Hit _]. simpl in Hit.
    rewrite last_snoc, Hit. by eexists.
Qed.

Lemma verbose_only_prints_witness :
  returned (select_features (H:=Example.collaborators)
              Example.df10 Example.target10 false 100 1e-16 0)
    = returned (select_features (H:=Example.collaborators)
                  Example.df10 Example.target10 false 100 1e-16 1) ∧
  printed (select_features (H:=Example.collaborators)
             Example.df10 Example.target10 false 100 1e-16 0) = [] ∧
  ∃ r, last (printed (select_features (H:=Example.collaborators)
                        Example.df10 Example.target10 false 100 1e-16 1))
       = Some (IterationDone
                 (n_iterations (select_features (H:=Example.collaborators)
                                  Example.df10 Example.target10 false 100 1e-16 1))
                 (length ["d"; "c"; "b"; "a"; "e"]) r).
Proof.
  destruct (verbose_only_prints (H:=Example.collaborators)
              Example.df10 Example.target10 false 100 1e-16) as (Hsame & Hq & Hl).
  split_and!; [apply Hsame|exact Hq|].
  apply Hl; [lia|vm_compute; reflexivity].
Defined.

(** ** What the history records *)

Section History.
Context `{Collaborators}.
Variable sp : split.
Variable max_it : nat.
Variable eps : float.
Variable verbose : Z.

(** Along the loop the written part of the history, followed by the current
    residual, grows by the residual of each iteration; the slots behind
    stay as they were. *)
Lemma loop_history (fuel : nat) (s sf : state) :
  length (last_residuals s) = max_it →
  final (loop sp max_it eps verbose fuel s) = Ok sf →
  take (it sf) (last_residuals sf) ++ [residual sf]
    = take (it s) (last_residuals s)
      ++ residual s :: residuals (loop sp max_it eps verbose fuel s) ∧
  drop (it sf) (last_residuals sf) = drop (it sf) (last_residuals s) ∧
  length (last_residuals sf) = max_it.
Proof.
  revert s. induction fuel as [|fuel IH]; intros s Hlen; simpl.
  - destruct (loop_cond max_it s); simpl; by intros [= <-].
  - destruct (loop_cond max_it s) eqn:Hc; simpl; [|by intros [= <-]].
    destruct (loop_body sp eps verbose s) as [s'|e] eqn:Hb; simpl; [|done].
    intros Hf.
    unfold loop_cond in Hc.
    apply andb_true_iff in Hc as [Hlt%bool_decide_eq_true _].
    apply loop_body_inv in Hb as (ext & X & Xt & _ & _ & _ & Hs').
    destruct Hs' as (Hit & _ & _ & _ & Hhist & _).
    destruct (IH s') as (Htake & Hdrop & Hlen'); [|done|].
    { by rewrite Hhist, length_insert. }
    destruct (loop_it sp max_it eps verbose fuel s' sf Hf) as [Hsf _].
    split_and!; [| |done].
    + rewrite Htake, Hit, Hhist.
      rewrite (take_S_r _ _ (residual s)) by (apply list_lookup_insert_eq; lia).
      rewrite take_insert_ge by lia.
      by rewrite <-app_assoc.
    + rewrite Hdrop, Hhist. apply drop_insert_lt. lia.
Qed.

End History.

(** X6: when the loop ends without an exception after [n] iterations, the
    first [n] slots of the history hold the residual each iteration started
    with (the baseline [mean(|target_test|)], then the validation residual
    of every iteration but the last), the current residual is the one the
    last iteration computed, and the other [max_it - n] slots still hold
    0. *)
Theorem history_records_residuals `{Collaborators} (sp : split) (max_it : nat)
    (eps : float) (verbose : Z) (out : list line) (sf : state) :
  final (loop sp max_it eps verbose max_it (init sp max_it out)) = Ok sf →
  it sf = iterations (loop sp max_it eps verbose max_it (init sp max_it out)) ∧
  take (it sf) (last_residuals sf) ++ [residual sf]
    = np_mean (np_abs (target_test sp))
      :: residuals (loop sp max_it eps verbose max_it (init sp max_it out)) ∧
  drop (it sf) (last_residuals sf) = replicate (max_it - it sf) 0 ∧
  loop_cond max_it sf = false.
Proof.
  intros Hf.
  destruct (loop_history sp max_it eps verbose max_it (init sp max_it out) sf)
    as (Htake & Hdrop & Hlen); [|done|].
  { unfold np_zeros. simpl. apply length_replicate. }
  destruct (loop_it sp max_it eps verbose max_it (init sp max_it out) sf Hf)
    as [Hit _].
  split_and!.
  - done.
  - by rewrite Htake.
  - rewrite Hdrop. simpl. unfold np_zeros. apply drop_replicate.
  - pose proof (loop_adequate sp max_it eps verbose max_it (init sp max_it out))
      as Hx.
    specialize (Hx ltac:(simpl; lia)).
    remember (loop sp max_it eps verbose max_it (init sp max_it out)) as x.
    clear Heqx Htake Hdrop Hit. revert Hf.
    induction Hx as [s Hc|s e Hc Hb|s s' x Hc Hb Hx IH]; simpl.
    + by intros [= <-].
    + done.
    + apply IH.
Qed.

Lemma history_records_residuals_witness :
  it Example.state10_scaled_final = 4%nat ∧
  take 4 (last_residuals Example.state10_scaled_final)
    ++ [residual Example.state10_scaled_final]
    = [3; 0.99999999999999956; 0.69230769230769296; 0.69230769230769296;
       0.69230769230769296] ∧
  drop 4 (last_residuals Example.state10_scaled_final) = replicate 96 0.
Proof.
  destruct (history_records_residuals (H:=Example.collaborators)
              Example.sp10_scaled 100 1e-16 0 [] Example.state10_scaled_final)
    as (Hit & Htake & Hdrop & _).
  { vm_compute. reflexivity. }
  assert (iterations (loop (H:=Example.collaborators) Example.sp10_scaled 100
                        1e-16 0 100
                        (init (H:=Example.collaborators) Example.sp10_scaled 100 []))
          = 4%nat) as Hn by (vm_compute; reflexivity).
  rewrite Hn in Hit. rewrite Hit in Htake, Hdrop.
  split_and!; [exact Hit| |exact Hdrop].
  rewrite Htake. vm_compute. reflexivity.
Defined.

(** ** Filling the working set up to the cap *)

Section Cap.
Context `{Collaborators}.


End Cap.



(** ** The candidates the scorer takes *)




(** ** The order of doubles *)

(** [<] on the specification of binary64 values is transitive and
    irreflexive, NaN being below and above nothing. *)
Lemma SFltb_trans (x y z : SpecFloat.spec_float) :
  SpecFloat.SFltb x y = true → SpecFloat.SFltb y z = true →
  SpecFloat.SFltb x z = true.
Proof.
  unfold SpecFloat.SFltb, SpecFloat.SFcompare.
  change (Pos.compare_cont Eq) with Pos.compare.
  destruct x as [sx|sx| |sx mx ex], y as [sy|sy| |sy my ey],
    z as [sz|sz| |sz mz ez];
    try destruct sx; try destruct sy; try destruct sz; simpl; try done;
    repeat match goal with
           | |- context [(?a ?= ?b)%Z] => destruct (Z.compare_spec a b)
           | |- context [(?a ?= ?b)%positive] => destruct (Pos.compare_spec a b)
           end; simpl; try done; lia.
Qed.

Lemma SFltb_irrefl (x : SpecFloat.spec_float) : SpecFloat.SFltb x x = false.
Proof.
  unfold SpecFloat.SFltb, SpecFloat.SFcompare.
  change (Pos.compare_cont Eq) with Pos.compare.
  destruct x as [sx|sx| |sx mx ex]; try destruct sx; simpl; try done;
    by rewrite Z.compare_refl, Pos.compare_refl.
Qed.

Lemma ltb_trans (x y z : float) :
  (x <? y) = true → (y <? z) = true → (x <? z) = true.
Proof. rewrite !ltb_spec. apply SFltb_trans. Qed.

Lemma ltb_irrefl (x : float) : (x <? x) = false.
Proof. rewrite ltb_spec. apply SFltb_irrefl. Qed.

(** ** The best residual is the least *)

Section Best.
Context `{Collaborators}.
Variable sp : split.
Variable max_it : nat.
Variable eps : float.
Variable verbose : Z.

Lemma loop_best (fuel : nat) (s sf : state) :
  final (loop sp max_it eps verbose fuel s) = Ok sf →
  Forall (λ r, (r <? smallest_residual sf) = false)
    (residuals (loop sp max_it eps verbose fuel s)) ∧
  (smallest_residual sf = smallest_residual s ∨
   smallest_residual sf ∈ residuals (loop sp max_it eps verbose fuel s)) ∧
  (smallest_residual sf = smallest_residual s ∨
   (smallest_residual sf <? smallest_residual s) = true).
Proof.
  revert s. induction fuel as [|fuel IH]; intros s; simpl.
  - destruct (loop_cond max_it s); simpl; intros [= <-];
      split_and!; first [by left|by constructor].
  - destruct (loop_cond max_it s); simpl;
      [|intros [= <-]; split_and!; first [by left|by constructor]].
    destruct (loop_body sp eps verbose s) as [s'|e] eqn:Hb; simpl; [|done].
    intros Hf. destruct (IH _ Hf) as (Hall & Hmem & Hle).
    apply loop_body_inv in Hb as (ext & X & Xt & _ & _ & _ & Hs').
    destruct Hs' as (_ & _ & _ & Hres & _ & _ & Hsmall).
    rewrite <-Hres in Hsmall.
    destruct (residual s' <? smallest_residual s) eqn:Hlt.
    + (* improved: the best residual became this one *)
      split_and!.
      * constructor; [|done].
        destruct Hle as [->|Hle]; rewrite Hsmall in *; [apply ltb_irrefl|].
        destruct (residual s' <? smallest_residual sf) eqn:Hlt'; [|done].
        pose proof (ltb_trans _ _ _ Hle Hlt') as Habs.
        by rewrite ltb_irrefl in Habs.
      * right. destruct Hmem as [->|Hmem]; [rewrite Hsmall; left|by right].
      * right. destruct Hle as [->|Hle]; rewrite Hsmall in *; [done|].
        by eapply ltb_trans.
    + (* not improved *)
      rewrite Hsmall in *. split_and!.
      * constructor; [|done].
        destruct Hle as [->|Hle]; [done|].
        destruct (residual s' <? smallest_residual sf) eqn:Hlt'; [|done].
        pose proof (ltb_trans _ _ _ Hlt' Hle) as Habs. congruence.
      * destruct Hmem as [?|?]; [by left|right; by right].
      * done.
Qed.

End Best.

(** X9: when the loop ends without an exception, the best residual it
    leaves is either the seed or the validation residual of one of its
    iterations, it is the seed or strictly below the seed, and no iteration
    had a validation residual strictly below it. *)
Theorem best_residual_is_least `{Collaborators} (sp : split) (max_it : nat)
    (eps : float) (verbose : Z) (out : list line) (sf : state) :
  final (loop sp max_it eps verbose max_it (init sp max_it out)) = Ok sf →
  Forall (λ r, (r <? smallest_residual sf) = false)
    (residuals (loop sp max_it eps verbose max_it (init sp max_it out))) ∧
  (smallest_residual sf = 10 * np_mean (np_abs (target_test sp)) ∨
   smallest_residual sf
     ∈ residuals (loop sp max_it eps verbose max_it (init sp max_it out))) ∧
  (smallest_residual sf = 10 * np_mean (np_abs (target_test sp)) ∨
   (smallest_residual sf <? 10 * np_mean (np_abs (target_test sp))) = true).
Proof. apply loop_best. Qed.

Lemma best_residual_is_least_witness :
  residuals (loop (H:=Example.collaborators) Example.sp10_scaled 100 1e-16 0 100
               (init (H:=Example.collaborators) Example.sp10_scaled 100 []))
    = [0.99999999999999956; 0.69230769230769296; 0.69230769230769296;
       0.69230769230769296] ∧
  smallest_residual Example.state10_scaled_final = 0.69230769230769296 ∧
  Forall (λ r, (r <? smallest_residual Example.state10_scaled_final) = false)
    (residuals (loop (H:=Example.collaborators) Example.sp10_scaled 100 1e-16 0 100
                  (init (H:=Example.collaborators) Example.sp10_scaled 100 []))).
Proof.
  split; [vm_compute; reflexivity|]. split; [vm_compute; reflexivity|].
  apply (best_residual_is_least (H:=Example.collaborators)
           Example.sp10_scaled 100 1e-16 0 [] Example.state10_scaled_final).
  vm_compute. reflexivity.
Defined.

(** ** NaN *)

Lemma is_nan_spec (x : float) :
  is_nan x = true ↔ Prim2SF x = SpecFloat.S754_nan.
Proof.
  unfold is_nan. rewrite negb_true_iff, FloatAxioms.eqb_spec.
  unfold SpecFloat.SFeqb, SpecFloat.SFcompare.
  change (Pos.compare_cont Eq) with Pos.compare.
  destruct (Prim2SF x) as [s|s| |s m e]; try destruct s; simpl;
    rewrite ?Z.compare_refl, ?Pos.compare_refl; done.
Qed.

(** Nothing is below NaN. *)
Lemma ltb_nan_r (r x : float) : is_nan x = true → (r <? x) = false.
Proof.
  intros Hx%is_nan_spec. rewrite FloatAxioms.ltb_spec, Hx.
  unfold SpecFloat.SFltb, SpecFloat.SFcompare. by destruct (Prim2SF r).
Qed.


Lemma abs_nan (x : float) : is_nan x = true → is_nan (abs x) = true.
Proof. rewrite !is_nan_spec, FloatAxioms.abs_spec. by intros ->. Qed.

(** The threshold of the pruning step is not below the magnitude of a
    zero. *)
Lemma threshold_above_zero (x : float) :
  is_zero x = true → (coef_threshold <? abs x) = false.
Proof.
  unfold is_zero. rewrite FloatAxioms.eqb_spec, FloatAxioms.ltb_spec, FloatAxioms.abs_spec.
  destruct (Prim2SF x) as [s|s| |s m e] eqn:Hx; try destruct s;
    try (vm_compute; congruence); intros _; vm_compute; reflexivity.
Qed.


(** Where the guard holds an iteration starts. *)
Lemma loop_starts `{Collaborators} (sp : split) (max_it : nat) (eps : float)
    (verbose : Z) (fuel : nat) (s : state) :
  loop_cond max_it s = true →
  iterations (loop sp max_it eps verbose (S fuel) s) ≠ 0%nat.
Proof. intros Hc. simpl. rewrite Hc. by destruct (loop_body sp eps verbose s). Qed.

(** X11: on a target as long as the frame the function runs no iteration at
    all exactly when [max_it] is 0, or [max_it] is at least 2 and the
    baseline residual is close to 0; in particular with [max_it = 1] it
    always runs one. *)
Theorem no_iteration_iff `{Collaborators} (df : DataFrame)
    (target : list float) (df_scaled : bool) (max_it : nat) (eps : float)
    (verbose : Z) :
  length target = len df →
  n_iterations (select_features df target df_scaled max_it eps verbose) = 0%nat ↔
  max_it = 0%nat ∨
  ((2 ≤ max_it)%nat ∧
   isclose (np_mean (np_abs (target_test
              (make_split (if df_scaled then df else scale df) target)))) 0 = true).
Proof.
  intros Hlen.
  set (df' := if df_scaled then df else scale df) in *.
  assert (length target = len df') as Hlen'.
  { unfold df'. destruct df_scaled; [done|by rewrite len_scale]. }
  set (out := if negb df_scaled && truthy verbose
              then [ScalingData; ScalingDone] else []).
  set (sp := make_split df' target).
  assert (n_iterations (select_features df target df_scaled max_it eps verbose)
          = iterations (loop sp max_it eps verbose max_it (init sp max_it out)))
    as ->.
  { unfold select_features. fold df'. rewrite (split_manager_ok _ _ Hlen').
    fold sp out. by destruct (final _). }
  assert (loop_cond max_it (init sp max_it out) = false ↔
          max_it = 0%nat ∨
          ((2 ≤ max_it)%nat ∧ isclose (np_mean (np_abs (target_test sp))) 0 = true))
    as <-.
  { unfold loop_cond, init. cbn [it residual last_residuals].
    unfold np_zeros. rewrite map_replicate, np_sum_bool_replicate.
    rewrite andb_false_iff, negb_false_iff, bool_decide_eq_false,
      bool_decide_eq_true.
    destruct (isclose _ 0); lia. }
  destruct (loop_cond max_it (init sp max_it out)) eqn:Hc.
  - split; [|done]. destruct max_it as [|fuel].
    + unfold loop_cond in Hc. simpl in Hc. done.
    + intros Hn. by apply (loop_starts _ _ _ _ _ _ Hc) in Hn.
  - by rewrite (loop_exit _ _ _ _ _ _ Hc).
Qed.


Lemma no_iteration_iff_witness :
  n_iterations (select_features (H:=Example.collaborators)
                  Example.df10 Example.target10 true 1 1e-16 0) = 1%nat ∧
  (n_iterations (select_features (H:=Example.collaborators)
                   Example.df10 Example.target10 true 1 1e-16 0) = 0%nat ↔
   1%nat = 0%nat ∨
   ((2 ≤ 1)%nat ∧
    isclose (np_mean (Collaborators:=Example.collaborators)
               (np_abs (target_test
                  (make_split (if true then Example.df10
                               else scale (H:=Example.collaborators) Example.df10)
                     Example.target10)))) 0 = true)).
Proof.
  split; [vm_compute; reflexivity|].
  apply (no_iteration_iff (H:=Example.collaborators)
           Example.df10 Example.target10 true 1 1e-16 0).
  reflexivity.
Defined.

(** X12: a feature is never kept by the pruning step with a coefficient that
    is zero or NaN: every feature of the working set an iteration of a run
    leaves has a coefficient that is neither. *)
Theorem pruned_set_has_nonzero_coefficients `{Collaborators} (df : DataFrame)
    (target : list float) (max_it : nat) (eps : float) (verbose : Z)
    (out : list line) (s s' : state) :
  reachable (make_split df target) max_it eps verbose out s →
  loop_body (make_split df target) eps verbose s = Ok s' →
  ∃ ext X,
    candidate_scorer (make_split df target) (good_cols s) (new_target s) = Ok ext ∧
    to_numpy_of (df_train (make_split df target)) ext = Ok X ∧
    ∀ c, c ∈ good_cols s' →
      ∃ i w, ext !! i = Some c ∧
             coef_ (lasso_fit eps X (target_train (make_split df target))) !! i
               = Some w ∧
             is_nan w = false ∧ is_zero w = false.
Proof.
  intros [Hnd _ _ _ _]%reachable_inv Hb.
  destruct (candidate_scorer_ok (make_split df target) (good_cols s)
              (new_target s) Hnd) as (new & Hext & Hnd' & _).
  destruct (loop_body_inv _ _ _ _ _ Hb)
    as (ext & X & Xt & Hext' & HX & _ & _ & Hgood & _).
  exists ext, X. split_and!; [done..|].
  rewrite Hext in Hext'. injection Hext' as <-.
  rewrite dict_NoDup in Hgood
    by (eapply sublist_NoDup; [exact Hnd'|apply fst_zip_sublist]).
  intros c Hc. rewrite Hgood in Hc.
  apply elem_of_prune_zip in Hc as (i & w & Hi & Hw & Hlt).
  exists i, w. split_and!; [done..| |].
  - destruct (is_nan w) eqn:Hn; [|done].
    by rewrite (ltb_nan_r _ _ (abs_nan _ Hn)) in Hlt.
  - destruct (is_zero w) eqn:Hz; [|done].
    by rewrite (threshold_above_zero _ Hz) in Hlt.
Qed.

Lemma pruned_set_has_nonzero_coefficients_witness :
  ∃ ext X,
    candidate_scorer (H:=Example.collaborators)
      (make_split Example.df10 Example.target10)
      (good_cols Example.state10_0) (new_target Example.state10_0) = Ok ext ∧
    to_numpy_of (df_train (make_split Example.df10 Example.target10)) ext = Ok X ∧
    ∀ c, c ∈ good_cols Example.state10_1 →
      ∃ i w, ext !! i = Some c ∧
             coef_ (Collaborators:=Example.collaborators)
               (lasso_fit (Collaborators:=Example.collaborators) 1e-16 X
                  (target_train (make_split Example.df10 Example.target10))) !! i
               = Some w ∧
             is_nan w = false ∧ is_zero w = false.
Proof.
  apply (pruned_set_has_nonzero_coefficients (H:=Example.collaborators)
           Example.df10 Example.target10 100 1e-16 0 []
           Example.state10_0 Example.state10_1).
  - apply reach_init.
  - vm_compute. reflexivity.
Defined.
